(** * Geo profile generator: a shallow embedding of [src/script.py]

    The development follows the layout of the script: the Python-level
    primitives it relies on (integer/string conversion, [round], the
    [random] module, the clock, Faker), the reference tables built by
    [GeoProfileGenerator.__init__], the field generators, the profile
    composer and the batch generator.

    Modelling conventions.
    - Python [str] is a Rocq [string] holding the UTF-8 bytes of the text.
    - Python [int] is [Z]; Python [float] is a binary64 [float] computed by
      the kernel's primitive operations.
    - An exception is a value [Raise e] of the [result] type; stateful code
      threads a [World] made of the state of the [random] module, the state
      of Faker's own generator, and the wall clock.
    - In the script the definitions from [generate_stueckzahl] onwards sit at
      indentation level 0, after the class body.  They all take [self] and
      are called as [self.f()] / [generator.f()]; here every such call is
      resolved to the function of that name. *)

From Stdlib Require Import ZArith Lia Ascii String PrimFloat SpecFloat FloatOps.
From stdpp Require Import base option list strings gmap.

Set Warnings "-inexact-float,-register-all".
Local Open Scope Z_scope.

(** ** Exceptions and results *)

Inductive exn := IndexError | ValueError | KeyError | TypeError.

Inductive result (A : Type) :=
| Ok (a : A)
| Raise (e : exn).
Arguments Ok {A} a.
Arguments Raise {A} e.

(** ** Python values that flow through [generate_zip_code] *)

Inductive pyval :=
| VInt (n : Z)
| VStr (s : string)
| VTuple (l : list pyval)
| VList (l : list pyval).

(** ** [str(int)] and [int(str)] *)

Definition digit_char (d : Z) : ascii :=
  ascii_of_nat (48 + Z.to_nat d).

(** Decimal digits of a non-negative [n], most significant first, pushed in
    front of [acc].  [fuel] bounds the number of digits. *)
Fixpoint digits_aux (fuel : nat) (n : Z) (acc : string) : string :=
  match fuel with
  | O => acc
  | S fuel' =>
      let acc' := String (digit_char (n `mod` 10)) acc in
      if n <? 10 then acc' else digits_aux fuel' (n `div` 10) acc'
  end.

Definition digits_fuel (n : Z) : nat := S (Z.to_nat (Z.log2 n)).

(** [str(n)] for an [int]. *)
Definition str_Z (n : Z) : string :=
  if n <? 0 then String "-" (digits_aux (digits_fuel (- n)) (- n) EmptyString)
  else digits_aux (digits_fuel n) n EmptyString.

Definition digit_value (c : ascii) : option Z :=
  let k := Z.of_nat (nat_of_ascii c) in
  if (48 <=? k) && (k <=? 57) then Some (k - 48) else None.

Definition is_digit (c : ascii) : Prop := is_Some (digit_value c).

Fixpoint parse_digits (s : string) (acc : Z) : option Z :=
  match s with
  | EmptyString => Some acc
  | String c s' =>
      match digit_value c with
      | Some d => parse_digits s' (10 * acc + d)
      | None => None
      end
  end.

(** [int(s)] for a [str]: an optional sign followed by decimal digits
    (leading zeros allowed: [int("01000") = 1000]).  The surrounding blanks
    and digit-group underscores that Python also accepts do not occur in the
    script's tables and are rejected here. *)
Definition int_of_string (s : string) : result Z :=
  let unsigned (t : string) : option Z :=
    match t with
    | EmptyString => None
    | _ => parse_digits t 0
    end in
  let r :=
    match s with
    | EmptyString => None
    | String c t =>
        if Ascii.eqb c "-" then Z.opp <$> unsigned t
        else if Ascii.eqb c "+" then unsigned t
        else unsigned s
    end in
  match r with
  | Some n => Ok n
  | None => Raise ValueError
  end.

(** [int(v)] *)
Definition py_int (v : pyval) : result Z :=
  match v with
  | VInt n => Ok n
  | VStr s => int_of_string s
  | VTuple _ | VList _ => Raise TypeError
  end.

Definition join_comma (l : list string) : string :=
  match l with
  | [] => EmptyString
  | x :: xs => foldl (λ acc y, acc +:+ ", " +:+ y) x xs
  end.

(** [repr(v)]; string literals are rendered between single quotes, escapes
    are not modelled. *)
Fixpoint py_repr (v : pyval) : string :=
  match v with
  | VInt n => str_Z n
  | VStr s => "'" +:+ s +:+ "'"
  | VTuple l =>
      match l with
      | [x] => "(" +:+ py_repr x +:+ ",)"
      | _ => "(" +:+ join_comma (map py_repr l) +:+ ")"
      end
  | VList l => "[" +:+ join_comma (map py_repr l) +:+ "]"
  end.

(** What an f-string field [{v}] renders. *)
Definition py_str (v : pyval) : string :=
  match v with
  | VStr s => s
  | _ => py_repr v
  end.

(** ** String helpers *)

(** [s.lower()] on the ASCII letters; every upper-case letter of the name
    pools is ASCII. *)
Definition lower_ascii (c : ascii) : ascii :=
  let k := nat_of_ascii c in
  if ((65 <=? k) && (k <=? 90))%nat then ascii_of_nat (k + 32) else c.

Fixpoint lower (s : string) : string :=
  match s with
  | EmptyString => EmptyString
  | String c s' => String (lower_ascii c) (lower s')
  end.

(** [s[0]] *)
Definition first_char (s : string) : result string :=
  match s with
  | EmptyString => Raise IndexError
  | String c _ => Ok (String c EmptyString)
  end.

(** [s.split(" ", 1)] when [" " in s]: the text before and after the first
    blank; [None] when [s] has no blank. *)
Fixpoint split_blank (s : string) : option (string * string) :=
  match s with
  | EmptyString => None
  | String c s' =>
      if Ascii.eqb c " " then Some (EmptyString, s')
      else '(a, b) ← split_blank s'; Some (String c a, b)
  end.

Fixpoint chars (s : string) : list ascii :=
  match s with
  | EmptyString => []
  | String c s' => c :: chars s'
  end.

(** ** Floats: [float(int)] and [round(x, ndigits)] *)

(** [float(n)], correctly rounded. *)
Definition float_of_Z (n : Z) : float :=
  SF2Prim (binary_normalize prec emax n 0 false).

(** Quotient of [a] by [b > 0] rounded to the nearest integer, ties to
    even. *)
Definition div_half_even (a b : Z) : Z :=
  let q := a `div` b in
  let r := a `mod` b in
  if 2 * r <? b then q
  else if b <? 2 * r then q + 1
  else if Z.even q then q else q + 1.

(** [round(x, ndigits)] for [ndigits >= 0], as CPython computes it: the
    exact binary value of [x] is rounded half-even to [ndigits] decimals,
    and the resulting decimal is converted back to the nearest float. *)
Definition py_round (x : float) (ndigits : Z) : float :=
  match Prim2SF x with
  | S754_finite s m e =>
      let num := Z.pos m * 10 ^ ndigits in
      let n := if 0 <=? e then num * 2 ^ e else div_half_even num (2 ^ (- e)) in
      match n with
      | Z.pos p =>
          SF2Prim (SFdiv prec emax (S754_finite s p 0)
                     (S754_finite false (Z.to_pos (10 ^ ndigits)) 0))
      | _ => SF2Prim (S754_zero s)
      end
  | _ => x
  end.

(** ** Dates *)

Record date := Date { d_year : Z; d_month : Z; d_day : Z }.

Record datetime := DateTime {
  dt_year : Z; dt_month : Z; dt_day : Z;
  dt_hour : Z; dt_minute : Z; dt_second : Z }.

Definition is_leap (y : Z) : bool :=
  (y `mod` 4 =? 0) && (negb (y `mod` 100 =? 0) || (y `mod` 400 =? 0)).

Definition days_in_month (y m : Z) : Z :=
  if m =? 2 then (if is_leap y then 29 else 28)
  else if (m =? 4) || (m =? 6) || (m =? 9) || (m =? 11) then 30
  else 31.

(** [dt.replace(year=y)] *)
Definition replace_year (dt : datetime) (y : Z) : result datetime :=
  if (1 <=? y) && (y <=? 9999) && (dt_day dt <=? days_in_month y (dt_month dt))
  then Ok (DateTime y (dt_month dt) (dt_day dt)
             (dt_hour dt) (dt_minute dt) (dt_second dt))
  else Raise ValueError.

(** [str(n).zfill(w)] for [n >= 0] *)
Definition zfill (w : nat) (n : Z) : string :=
  let s := str_Z n in
  String.concat EmptyString (replicate (w - String.length s)%nat "0"%string) +:+ s.

(** [d.strftime("%Y-%m-%d")] *)
Definition strftime_date (d : date) : string :=
  zfill 4 (d_year d) +:+ "-" +:+ zfill 2 (d_month d) +:+ "-" +:+ zfill 2 (d_day d).

(** [dt.strftime("%Y-%m-%d %H:%M:%S")] *)
Definition strftime_datetime (dt : datetime) : string :=
  zfill 4 (dt_year dt) +:+ "-" +:+ zfill 2 (dt_month dt) +:+ "-" +:+ zfill 2 (dt_day dt)
  +:+ " " +:+ zfill 2 (dt_hour dt) +:+ ":" +:+ zfill 2 (dt_minute dt) +:+ ":"
  +:+ zfill 2 (dt_second dt).

(** ** The external sources of randomness *)

(** The state of Python's module-level [random] generator.
    [rng_getrandbits53] is the 53-bit integer from which [random.random()]
    builds its float; [rng_randbelow n] is [Random._randbelow(n)]. *)
Class RandomSource := {
  rng : Type;
  rng_seed : Z → rng;
  rng_getrandbits53 : rng → Z * rng;
  rng_randbelow : Z → rng → Z * rng;
  rng_getrandbits53_range g :
    0 ≤ (rng_getrandbits53 g).1 < 2 ^ 53;
  rng_randbelow_range n g :
    0 < n → 0 ≤ (rng_randbelow n g).1 < n
}.

(** Faker for one locale.  Faker draws from its own generator, seeded by
    [Faker.seed]; the providers that are relative to the present take the
    clock reading they work from. *)
Class Faker := {
  fstate : Type;
  fk_seed : Z → fstate;
  fk_city : fstate → string * fstate;
  fk_street_name : fstate → string * fstate;
  fk_building_number : fstate → string * fstate;
  fk_date_of_birth : datetime → Z → Z → fstate → date * fstate;
  fk_date_time_this_year : datetime → fstate → datetime * fstate
}.

(** ** Reference data tables ([GeoProfileGenerator.__init__]) *)

Definition states : list string := [
  "Baden-Württemberg"; "Bayern"; "Berlin"; "Brandenburg"; "Bremen"; "Hamburg"; "Hessen";
  "Niedersachsen"; "Mecklenburg-Vorpommern"; "Nordrhein-Westfalen"; "Rheinland-Pfalz";
  "Saarland"; "Sachsen"; "Sachsen-Anhalt"; "Schleswig-Holstein"; "Thüringen" ].

Definition int_range (lo hi : Z) : pyval := VTuple [VInt lo; VInt hi].
Definition str_range (lo hi : string) : pyval := VTuple [VStr lo; VStr hi].

Definition zip_code_ranges_items : list (string * pyval) := [
  ("Baden-Württemberg", int_range 70000 79999);
  ("Bayern", int_range 80000 99999);
  ("Berlin", int_range 10000 19999);
  ("Brandenburg", int_range 14000 14999);
  ("Bremen", int_range 28000 28999);
  ("Hamburg", int_range 20000 29999);
  ("Hessen", int_range 60000 69999);
  ("Niedersachsen", int_range 26000 29999);
  ("Mecklenburg-Vorpommern", int_range 17000 17999);
  ("Nordrhein-Westfalen", int_range 40000 49999);
  ("Rheinland-Pfalz", int_range 55000 59999);
  ("Saarland", int_range 66000 66999);
  ("Sachsen", VList [ str_range "01000" "01999"; str_range "04000" "04999" ]);
  ("Sachsen-Anhalt", int_range 39000 39999);
  ("Schleswig-Holstein", int_range 24000 25999);
  ("Thüringen", int_range 99000 99999) ].

Definition zip_code_ranges : gmap string pyval :=
  list_to_map zip_code_ranges_items.

Definition first_names_male : list string := [
  "Lukas"; "Max"; "Paul"; "Jonas"; "Leon"; "Felix"; "Finn"; "Ben"; "Moritz";
  "Noah"; "Johannes"; "Tim"; "Julian"; "David"; "Matthias"; "Niklas"; "Elias";
  "Alexander"; "Tobias"; "Samuel"; "Lucas"; "Jakob"; "Fabian"; "Andreas";
  "Markus"; "Christian"; "Stefan"; "Simon"; "Benjamin"; "Daniel"; "Michael";
  "Johann"; "Mark"; "Kai"; "Martin"; "Jakob"; "Julian"; "Tom"; "Nico";
  "Patrick"; "Sebastian"; "Bastian"; "Hannes"; "Matthias"; "Rafael"; "Georg";
  "Arthur"; "Lennard"; "Oskar"; "Jan"; "Maurice"; "Timothy" ].

Definition first_names_female : list string := [
  "Anna"; "Sophie"; "Marie"; "Emma"; "Lena"; "Laura"; "Mia"; "Hannah"; "Lina";
  "Sophie"; "Lea"; "Sarah"; "Charlotte"; "Clara"; "Amelie"; "Lilli"; "Emily";
  "Nina"; "Ella"; "Katharina"; "Isabella"; "Julia"; "Lisa"; "Franziska";
  "Marlene"; "Greta"; "Eva"; "Luisa"; "Paula"; "Johanna"; "Carla"; "Leonie";
  "Lara"; "Alina"; "Klara"; "Victoria"; "Elena"; "Sina"; "Merle"; "Maja";
  "Selina"; "Antonia"; "Tessa"; "Nadine"; "Isabel"; "Vanessa"; "Daniela";
  "Verena"; "Bettina"; "Jana"; "Maike"; "Melanie" ].

Definition last_names : list string := [
  "Müller"; "Schmidt"; "Schneider"; "Fischer"; "Weber"; "Meyer"; "Wagner"; "Becker";
  "Hoffmann"; "Schulz"; "Bauer"; "Koch"; "Richter"; "Klein"; "Wolf"; "Schröder";
  "Neumann"; "Schwarz"; "Zimmermann"; "Braun"; "Schmitt"; "Hartmann"; "Lange"; "Werner";
  "Krause"; "Peters"; "Jung"; "Roth"; "Voigt"; "Berger"; "Mayer"; "Fuchs"; "Schulte";
  "Böhm"; "Weiss"; "Bergmann"; "Kraus"; "Vogel"; "Lang"; "Ziegler"; "Sauer";
  "Weidner"; "Meyerhoff"; "Weigel"; "Weber"; "Wirth"; "Krämer"; "Röder"; "Heinrich";
  "Hahn"; "Böttcher"; "Schulze" ].

Definition email_providers : list string := [
  "gmx.de"; "web.de"; "t-online.de"; "yahoo.de"; "freenet.de"; "aol.de"; "mail.de";
  "tutanota.de"; "hotmail.de"; "outlook.de"; "1und1.de"; "posteo.de"; "googlemail.com";
  "mailbox.org"; "arcor.de"; "ziggo.de"; "gmx.net"; "freemail.de"; "scholar.de";
  "mymail.de"; "bluewin.ch"; "studiemail.de"; "uni-mail.de"; "gmx.at"; "gmx.ch";
  "email.de"; "deutschlandemail.de"; "planet-interkom.de"; "test.de"; "versatel.de";
  "gmx.us"; "gmx.co.uk"; "gmx.fr"; "mailplus.de"; "citymail.de"; "iserv.de";
  "gmx.org"; "sapo.de"; "mail.ru"; "scout24.de"; "onlinedeutsch.de"; "blitzmail.de";
  "earthlink.net"; "easy-mail.de"; "eclipso.de"; "freenetmail.de"; "mailzilla.de";
  "surfmail.de"; "gmx.us"; "altavista.com"; "dawnmail.de"; "posteo.net" ].

Definition city_coords_items : list (string * (float * float)) := [
  ("Berlin", (52.5200, 13.4050)%float);
  ("Munich", (48.1351, 11.5820)%float);
  ("Hamburg", (53.5511, 9.9937)%float);
  ("Cologne", (50.9375, 6.9603)%float);
  ("Frankfurt", (50.1109, 8.6821)%float);
  ("Stuttgart", (48.7758, 9.1829)%float);
  ("Düsseldorf", (51.2217, 6.7762)%float);
  ("Dortmund", (51.5145, 7.4660)%float);
  ("Essen", (51.4556, 7.0116)%float);
  ("Leipzig", (51.3397, 12.3731)%float);
  ("Bremen", (53.0793, 8.8017)%float);
  ("Dresden", (51.0504, 13.7373)%float);
  ("Hanover", (52.3792, 9.7196)%float);
  ("Nuremberg", (49.4521, 11.0767)%float);
  ("Duisburg", (51.4344, 6.7623)%float);
  ("Bochum", (51.4818, 7.2162)%float);
  ("Wuppertal", (51.2562, 7.1500)%float);
  ("Bielefeld", (52.0302, 8.5325)%float);
  ("Münster", (51.9607, 7.6261)%float);
  ("Mannheim", (49.4875, 8.4671)%float);
  ("Karlsruhe", (49.0141, 8.4044)%float);
  ("Hannover", (52.3792, 9.7196)%float);
  ("Nürnberg", (49.4521, 11.0767)%float) ].

Definition city_coords : gmap string (float * float) :=
  list_to_map city_coords_items.

Definition purchase_items : list string := [
  "Hose"; "T-Shirt"; "Socken"; "Jacke"; "Schuhe"; "Kleid"; "Bluse"; "Rock"; "Pullover";
  "Jeans"; "Shorts"; "Mantel"; "Anzug"; "Mütze"; "Schal"; "Handschuhe"; "Unterwäsche";
  "Badeanzug"; "Jogginghose"; "Hemd"; "Polo-Shirt"; "Top"; "Pyjama"; "Bikini"; "Weste";
  "Leggings"; "Poncho"; "Strickjacke"; "Overall"; "Trainingsanzug"; "Stirnband"; "Strumpfhose";
  "Sandalen"; "Stiefel"; "Sneaker"; "Pumps"; "Slipper"; "Cargohose"; "Blazer"; "Cardigan";
  "Gürtel"; "Krawatte"; "Fliege"; "Latzhose"; "Trachten"; "Dirndl"; "Halstuch"; "Regenjacke";
  "Regenhose"; "Wanderstiefel"; "Kapuzenpullover"; "Chinos"; "Cargo-Shorts"; "Pufferjacke";
  "Desert Boots"; "Loafers"; "Espadrilles"; "Flip-Flops"; "Hausschuhe"; "Boxershorts";
  "Tanktop"; "Badehose"; "Radlerhose"; "Sonnenhut"; "Haarband"; "Klettschuhe"; "Schnürschuhe";
  "Abendkleid"; "Ballkleid"; "Ballerinas"; "Mokassins"; "Zehensandalen"; "Bastschuhe"; "Segelschuhe";
  "Wedges"; "Plateauschuhe"; "Stoffschuhe"; "Clogs"; "Römersandalen"; "Kampfstiefel"; "Chelseaboots";
  "Brogues"; "Halbschuhe"; "Oxfordschuhe"; "Laufschuhe"; "Kletterhosen"; "Sport-BH"; "Funktionsshirt" ].

(** ** A generated profile (the dictionary built by [generate_profile]) *)

Record Profile := {
  first_name : string;
  last_name : string;
  gender : string;
  email : string;
  birthday : string;
  street : string;
  zip_city : string;
  state : string;
  latitude : float;
  longitude : float;
  purchase_item : string;
  price : float;
  quantity : Z;
  tax_rate : float;
  tax_amount : float;
  subtotal : float;
  total : float;
  purchase_type : string;
  purchase_date : string
}.

(** [generate_geo_coordinates]: the membership test, then the indexing
    [self.city_coords[city]], which raises [KeyError] on a missing key. *)
Definition generate_geo_coordinates (city : string) : result (float * float) :=
  if bool_decide (city ∈ dom city_coords) then
    match city_coords !! city with
    | Some c => Ok c
    | None => Raise KeyError
    end
  else Ok (51.1657, 10.4515)%float.

(** ** The generator over an arbitrary random source and Faker *)

Section Generator.
Context {RS : RandomSource} {FK : Faker}.

(** Everything a draw can read or change.  [w_clock i] is the reading the
    [i]-th next look at the clock will return. *)
Record World := {
  w_random : rng;
  w_faker : fstate;
  w_clock : nat → datetime
}.

Definition M (A : Type) : Type := World → result (A * World).

#[export] Instance M_ret : MRet M := λ A a w, Ok (a, w).

#[export] Instance M_bind : MBind M := λ A B f m w,
  match m w with
  | Ok (a, w') => f a w'
  | Raise e => Raise e
  end.

Definition raise {A} (e : exn) : M A := λ _, Raise e.

Definition lift {A} (r : result A) : M A := λ w,
  match r with
  | Ok a => Ok (a, w)
  | Raise e => Raise e
  end.

(** *** The [random] module *)

Definition randbelow (n : Z) : M Z := λ w,
  let '(r, g) := rng_randbelow n (w_random w) in
  Ok (r, {| w_random := g; w_faker := w_faker w; w_clock := w_clock w |}).

(** [random.random()]: a 53-bit integer scaled by [2^-53]. *)
Definition random : M float := λ w,
  let '(k, g) := rng_getrandbits53 (w_random w) in
  Ok ((float_of_Z k * 0x1p-53)%float,
      {| w_random := g; w_faker := w_faker w; w_clock := w_clock w |}).

(** [random.choice(seq)] *)
Definition choice {A} (seq : list A) : M A :=
  match seq with
  | [] => raise IndexError
  | _ =>
      i ← randbelow (Z.of_nat (length seq));
      match seq !! Z.to_nat i with
      | Some x => mret x
      | None => raise IndexError
      end
  end.

(** [random.choice] on a Python value: sequences only. *)
Definition choice_val (v : pyval) : M pyval :=
  match v with
  | VTuple l | VList l => choice l
  | VStr s => c ← choice (chars s); mret (VStr (String c EmptyString))
  | VInt _ => raise TypeError
  end.

(** [random.randint(a, b)] *)
Definition randint (a b : Z) : M Z :=
  if 0 <? b + 1 - a then r ← randbelow (b + 1 - a); mret (a + r)
  else raise ValueError.

(** [random.uniform(a, b)] *)
Definition uniform (a b : float) : M float :=
  x ← random; mret (a + (b - a) * x)%float.

(** *** The clock and Faker *)

(** [datetime.now()] *)
Definition now : M datetime := λ w,
  Ok (w_clock w O,
      {| w_random := w_random w; w_faker := w_faker w;
         w_clock := λ i, w_clock w (S i) |}).

Definition with_faker {A} (f : fstate → A * fstate) : M A := λ w,
  let '(a, s) := f (w_faker w) in
  Ok (a, {| w_random := w_random w; w_faker := s; w_clock := w_clock w |}).

Definition faker_city : M string := with_faker fk_city.
Definition faker_street_name : M string := with_faker fk_street_name.
Definition faker_building_number : M string := with_faker fk_building_number.

Definition faker_date_of_birth (minimum_age maximum_age : Z) : M date :=
  today ← now; with_faker (fk_date_of_birth today minimum_age maximum_age).

Definition faker_date_time_this_year : M datetime :=
  t ← now; with_faker (fk_date_time_this_year t).

(** *** [GeoProfileGenerator.__init__]: seeding *)


(** *** Field generators *)

(** [seq[i]] on a list of values *)
Definition index (l : list pyval) (i : nat) : M pyval :=
  match l !! i with
  | Some v => mret v
  | None => raise IndexError
  end.

Definition generate_zip_code (st : string) : M pyval :=
  let zip_range := default (int_range 10000 19999) (zip_code_ranges !! st) in
  zip_range ← (if bool_decide (st = "Sachsen") then choice_val zip_range
               else mret zip_range);
  match zip_range with
  | VTuple l =>
      lo ← index l 0; lo ← lift (py_int lo);
      hi ← index l 1; hi ← lift (py_int hi);
      n ← randint lo hi;
      mret (VStr (str_Z n))
  | _ => mret zip_range
  end.

Definition generate_email (first_name last_name : string) : M string :=
  email_provider ← choice email_providers;
  format_type ← randint 1 4;
  username ←
    (if format_type =? 1 then
       n ← randint 1 100;
       mret (lower first_name +:+ "." +:+ lower last_name +:+ str_Z n)
     else if format_type =? 2 then
       f ← lift (first_char (lower first_name));
       n ← randint 1 100;
       mret (f +:+ lower last_name +:+ str_Z n)
     else if format_type =? 3 then
       l ← lift (first_char (lower last_name));
       n ← randint 1 100;
       mret (lower first_name +:+ l +:+ str_Z n)
     else
       n ← randint 1 100;
       mret (lower last_name +:+ "." +:+ lower first_name +:+ str_Z n));
  mret (username +:+ "@" +:+ email_provider).

Definition generate_address (st : string) : M (string * string) :=
  zip_code ← generate_zip_code st;
  city ← faker_city;
  street_name ← faker_street_name;
  building_number ← faker_building_number;
  mret (py_str zip_code +:+ " " +:+ city, street_name +:+ " " +:+ building_number).

Definition generate_birthday (min_age max_age : Z) : M string :=
  end_date ← now;
  start_date ← lift (replace_year end_date (dt_year end_date - max_age));
  birth_date ← faker_date_of_birth min_age max_age;
  mret (strftime_date birth_date).

Definition generate_price : M float :=
  x ← uniform 5.0 199.99; mret (py_round x 2).

Definition generate_stueckzahl : M Z :=
  x ← random;
  if (x <? 0.7)%float then mret 1 else randint 2 5.

Definition generate_sales_tax : M float :=
  x ← random;
  mret (if (x <? 0.8)%float then 0.19 else 0.07)%float.

Definition generate_purchase_type : M string :=
  choice ["Online"; "In-Store"]%string.

(** *** Profile composer *)

Definition generate_profile : M Profile :=
  x ← random;
  let gender := (if (x <? 0.5)%float then "male" else "female")%string in
  first_name ← (if bool_decide (gender = "male"%string)
                then choice first_names_male else choice first_names_female);
  last_name ← choice last_names;
  email ← generate_email first_name last_name;
  state ← choice states;
  '(zip_city, street) ← generate_address state;
  birthday ← generate_birthday 18 80;
  item ← choice purchase_items;
  price ← generate_price;
  quantity ← generate_stueckzahl;
  tax_rate ← generate_sales_tax;
  purchase_type ← generate_purchase_type;
  let subtotal := (price * float_of_Z quantity)%float in
  let tax_amount := (subtotal * tax_rate)%float in
  let total := (subtotal + tax_amount)%float in
  let city := match split_blank zip_city with
              | Some (_, c) => c
              | None => "Berlin"%string
              end in
  '(lat, lon) ← lift (generate_geo_coordinates city);
  purchase_dt ← faker_date_time_this_year;
  mret {| first_name := first_name;
          last_name := last_name;
          gender := gender;
          email := email;
          birthday := birthday;
          street := street;
          zip_city := zip_city;
          state := state;
          latitude := lat;
          longitude := lon;
          purchase_item := item;
          price := py_round price 2;
          quantity := quantity;
          tax_rate := tax_rate;
          tax_amount := py_round tax_amount 2;
          subtotal := py_round subtotal 2;
          total := py_round total 2;
          purchase_type := purchase_type;
          purchase_date := strftime_datetime purchase_dt |}.

(** *** Batch generator *)

(** The body of [for _ in range(count): profiles.append(...)]. *)
Fixpoint generate_loop (n : nat) (profiles : list Profile) : M (list Profile) :=
  match n with
  | O => mret profiles
  | S n' => p ← generate_profile; generate_loop n' (profiles ++ [p])
  end.

Definition generate_profiles (count : Z) : M (list Profile) :=
  generate_loop (Z.to_nat count) [].


(** *** Observations used to state the properties *)

(** A computation step that leaves Faker and the clock alone. *)
Definition frame (w w' : World) : Prop :=
  w_faker w' = w_faker w ∧ w_clock w' = w_clock w.

(** The city and the street line Faker yields from state [s]: [city()],
    then [street_name()], then [building_number()]. *)
Definition faker_address (s : fstate) : string * string :=
  let '(city, s1) := fk_city s in
  let '(street_name, s2) := fk_street_name s1 in
  let '(building_number, _) := fk_building_number s2 in
  (city, street_name +:+ " " +:+ building_number).

End Generator.

(** ** The attributes of a profile that the dictionary keeps joined *)

(** The ZIP code and the city of a profile: the text of [zip_city] before
    and after its first blank, as [generate_profile] itself splits it. *)
Definition zip_code (p : Profile) : option string :=
  fst <$> split_blank (zip_city p).

Definition city (p : Profile) : option string :=
  snd <$> split_blank (zip_city p).

(** ** The ranges a table entry registers *)

Definition tuple_range (v : pyval) : list (Z * Z) :=
  match v with
  | VTuple [a; b] =>
      match py_int a, py_int b with
      | Ok lo, Ok hi => [(lo, hi)]
      | _, _ => []
      end
  | _ => []
  end.

Definition ranges_of (v : pyval) : list (Z * Z) :=
  match v with
  | VList l => flat_map tuple_range l
  | _ => tuple_range v
  end.


(** The range table entry the generator works from: the registered one, or
    Berlin's for a state that is not a key of the table. *)
Definition effective_entry (st : string) : pyval :=
  default (int_range 10000 19999) (zip_code_ranges !! st).

Definition in_ranges (n : Z) (rs : list (Z * Z)) : Prop :=
  ∃ lo hi, (lo, hi) ∈ rs ∧ lo ≤ n ≤ hi.

(** ** A reference environment: sources that replay a tape

    Each draw consumes the next entry of a list of integers (zero once the
    list is exhausted) and reduces it into the requested range, so that any
    sequence of outcomes can be reproduced by choosing the tape. *)

Definition tape_next (t : list Z) : Z * list Z :=
  match t with
  | [] => (0, [])
  | x :: t' => (x, t')
  end.

Definition tape_of_seed (s : Z) : list Z :=
  map (λ i, (6364136223846793005 * (s + Z.of_nat i) + 1442695040888963407) `mod` 2 ^ 64)
      (seq 1 64).

#[export] Instance tape_random : RandomSource := {|
  rng := list Z;
  rng_seed := tape_of_seed;
  rng_getrandbits53 g := ((tape_next g).1 `mod` 2 ^ 53, (tape_next g).2);
  rng_randbelow n g := ((tape_next g).1 `mod` n, (tape_next g).2);
  rng_getrandbits53_range g := Z.mod_pos_bound (tape_next g).1 (2 ^ 53) eq_refl;
  rng_randbelow_range n g := Z.mod_pos_bound (tape_next g).1 n
|}.

Definition pick (l : list string) (k : Z) : string :=
  default EmptyString (l !! Z.to_nat (k `mod` Z.of_nat (length l))).

Definition sample_cities : list string :=
  [ "Berlin"; "Bad Kissingen"; "Leipzig"; "Freiburg im Breisgau"; "Plauen" ].

Definition sample_streets : list string :=
  [ "Hauptstraße"; "Am Anger"; "Gartenweg"; "Bahnhofstr." ].

#[export] Instance tape_faker : Faker := {|
  fstate := list Z;
  fk_seed := tape_of_seed;
  fk_city s := (pick sample_cities (tape_next s).1, (tape_next s).2);
  fk_street_name s := (pick sample_streets (tape_next s).1, (tape_next s).2);
  fk_building_number s := (str_Z (1 + (tape_next s).1 `mod` 150), (tape_next s).2);
  fk_date_of_birth today minimum_age maximum_age s :=
    (Date (dt_year today - minimum_age
           - (tape_next s).1 `mod` (maximum_age - minimum_age + 1))
          (dt_month today) (Z.min (dt_day today) 28),
     (tape_next s).2);
  fk_date_time_this_year t s :=
    let limit := if (dt_month t =? 1) && (dt_day t =? 1)
                 then 3600 * dt_hour t + 60 * dt_minute t + dt_second t
                 else 86399 in
    let secs := (tape_next s).1 `mod` (limit + 1) in
    (DateTime (dt_year t) 1 1 (secs `div` 3600) ((secs `div` 60) `mod` 60) (secs `mod` 60),
     (tape_next s).2)
|}.

(** A world whose clock stands still at [t]. *)
Definition tape_world (rt ft : list Z) (t : datetime) : World :=
  {| w_random := rt; w_faker := ft; w_clock := λ _, t |}.

(** Sample worlds.  In [sample_world] the draws select, in order: gender
    "male", "Lukas", "Müller", the provider, the e-mail format and number,
    the state "Sachsen", its second range, the ZIP offset, the item, the
    price, the quantity, the tax rate and the purchase channel. *)
Definition sample_world : World :=
  tape_world [0; 0; 0; 0; 0; 0; 12; 1; 7; 0; 4503599627370496; 0; 0; 0]
             [1; 2; 3; 4; 5] (DateTime 2024 6 15 12 0 0).


(** ** The derivation formulas read on the stored fields *)


(** ** The shapes of a generated e-mail address *)





(** ** The script around the generator: imports, exporters and [main] *)

(** The third-party packages present in the interpreter's environment;
    [has_folium] covers both [folium] and [folium.plugins]. *)
Record Installed := {
  has_pandas : bool;
  has_faker : bool;
  has_openpyxl : bool;
  has_folium : bool
}.

(** The two module-level flags. *)
Record Flags := {
  FOLIUM_AVAILABLE : bool;
  EXCEL_AVAILABLE : bool
}.

(** Executing the top level of the module: the plain imports of [pandas],
    [faker] and [openpyxl] raise [ImportError] (here, the name of the
    missing package) when the package is absent; the two guarded imports
    set the flags. *)
Definition load_module (env : Installed) : string + Flags :=
  if negb (has_pandas env) then inl "pandas"%string
  else if negb (has_faker env) then inl "faker"%string
  else if negb (has_openpyxl env) then inl "openpyxl"%string
  else inr {| FOLIUM_AVAILABLE := has_folium env;
              EXCEL_AVAILABLE := has_openpyxl env |}.


(** The writers of pandas, [json] and folium, acting on a file system.  A
    data frame is represented by the list of rows it was built from; a
    writer yields [None] when it raises. *)
Class Exporters := {
  files : Type;
  df_to_csv : list Profile → string → files → option files;
  df_to_excel : list Profile → string → files → option files;
  json_dump : list Profile → string → files → option files;
  folium_save : list Profile → string → files → option files
}.

(** How a run of the script ends. *)
Inductive failure :=
| GeneratorError (e : exn)
| WriterError.

Inductive outcome (A : Type) :=
| Done (a : A)
| Failed (f : failure).
Arguments Done {A} a.
Arguments Failed {A} f.

Section Script.
Context {RS : RandomSource} {FK : Faker} {EX : Exporters}.

(** What the script can read or change: the generator's world, the files
    and the standard output.  Files written and lines printed before an
    exception stay. *)
Record Sys := {
  sys_world : World;
  sys_files : files;
  sys_stdout : list string
}.

Definition IO (A : Type) : Type := Sys → outcome A * Sys.


#[export] Instance IO_bind : MBind IO := λ A B f m s,
  match m s with
  | (Done a, s') => f a s'
  | (Failed e, s') => (Failed e, s')
  end.


(** [print(line)] *)
Definition print (line : string) : IO unit := λ s,
  (Done tt, {| sys_world := sys_world s; sys_files := sys_files s;
               sys_stdout := sys_stdout s ++ [line] |}).

Definition write (writer : files → option files) : IO unit := λ s,
  match writer (sys_files s) with
  | Some fs =>
      (Done tt, {| sys_world := sys_world s; sys_files := fs;
                   sys_stdout := sys_stdout s |})
  | None => (Failed WriterError, s)
  end.




Definition save_to_excel (fl : Flags) (df : list Profile) (file_path : string) : IO unit :=
  if negb (EXCEL_AVAILABLE fl) then
    _ ← print "Error: openpyxl is not installed. Cannot save to Excel format.";
    print "Install it with 'pip install openpyxl'"
  else
    _ ← write (df_to_excel df file_path);
    print ("Data saved to Excel: " +:+ file_path).





End Script.

(** A reference file system: the list of the paths written, in order, on
    a disk that holds [quota] files; a write to a full disk raises. *)
Definition list_write (quota : nat) (path : string) (fs : list string)
    : option (list string) :=
  if (length fs <? quota)%nat then Some (fs ++ [path]) else None.

Definition quota_exporters (quota : nat) : Exporters := {|
  files := list string;
  df_to_csv _ := list_write quota;
  df_to_excel _ := list_write quota;
  json_dump _ := list_write quota;
  folium_save _ := list_write quota
|}.


Definition sample_sys (quota : nat) (t : datetime)
    : @Sys tape_random tape_faker (quota_exporters quota) :=
  @Build_Sys tape_random tape_faker (quota_exporters quota)
    (tape_world [] [] t) (@nil string) [].


(** More sample inputs: a clock on 29 February 2180 (2100 is not a leap
    year), an ordinary day, an environment with every package installed and
    one without folium. *)
Definition leap_day : datetime := DateTime 2180 2 29 12 0 0.

Definition leap_day_world : World := tape_world [] [] leap_day.

Definition summer_day : datetime := DateTime 2024 6 15 12 0 0.

Definition full_env : Installed :=
  {| has_pandas := true; has_faker := true; has_openpyxl := true;
     has_folium := true |}.

Definition all_flags : Flags :=
  {| FOLIUM_AVAILABLE := true; EXCEL_AVAILABLE := true |}.


(** * Properties *)

(** ** Decimal rendering and parsing *)

Lemma digit_value_char d : 0 ≤ d < 10 → digit_value (digit_char d) = Some d.
Proof.
  intros Hd.
  assert (d = 0 ∨ d = 1 ∨ d = 2 ∨ d = 3 ∨ d = 4 ∨ d = 5 ∨ d = 6 ∨ d = 7
          ∨ d = 8 ∨ d = 9) as Hcases by lia.
  repeat (destruct Hcases as [-> | Hcases]; [reflexivity |]).
  by subst.
Qed.

Lemma digits_aux_parse fuel : ∀ n acc,
  0 ≤ n < 2 ^ Z.of_nat fuel →
  parse_digits (digits_aux fuel n acc) 0 = parse_digits acc n.
Proof.
  induction fuel as [| fuel IH]; intros n acc Hn.
  - simpl in *. by replace n with 0 by lia.
  - cbn [digits_aux].
    assert (Hd : 0 ≤ n `mod` 10 < 10) by (apply Z.mod_pos_bound; lia).
    destruct (Z.ltb_spec n 10) as [Hlt | Hge].
    + cbn [parse_digits]. rewrite digit_value_char by done.
      rewrite Z.mod_small by lia. f_equal; lia.
    + rewrite IH.
      * cbn [parse_digits]. rewrite digit_value_char by done.
        f_equal. pose proof (Z.div_mod n 10). lia.
      * rewrite Nat2Z.inj_succ, Z.pow_succ_r in Hn by lia.
        split; [apply Z.div_pos; lia |].
        apply Z.div_lt_upper_bound; lia.
Qed.

Lemma digits_fuel_enough n : 0 ≤ n → n < 2 ^ Z.of_nat (digits_fuel n).
Proof.
  intros Hn. unfold digits_fuel.
  rewrite Nat2Z.inj_succ, Z2Nat.id by apply Z.log2_nonneg.
  destruct (decide (n = 0)) as [-> | Hne]; [done |].
  apply Z.log2_spec. lia.
Qed.

Lemma digits_aux_digits fuel : ∀ n acc,
  0 ≤ n → Forall is_digit (chars acc) →
  Forall is_digit (chars (digits_aux fuel n acc)).
Proof.
  induction fuel as [| fuel IH]; intros n acc Hn Hacc; [exact Hacc |].
  cbn [digits_aux].
  assert (Hd : 0 ≤ n `mod` 10 < 10) by (apply Z.mod_pos_bound; lia).
  assert (Forall is_digit (chars (String (digit_char (n `mod` 10)) acc))).
  { constructor; [| done]. unfold is_digit. by rewrite digit_value_char. }
  destruct (n <? 10); [done |].
  apply IH; [apply Z.div_pos; lia | done].
Qed.

Lemma digits_aux_length (k : nat) : ∀ fuel n acc,
  10 ^ Z.of_nat k ≤ n < 10 ^ Z.of_nat (S k) → (k < fuel)%nat →
  String.length (digits_aux fuel n acc) = (S k + String.length acc)%nat.
Proof.
  induction k as [| k IH]; intros fuel n acc Hn Hfuel.
  - destruct fuel as [| fuel]; [lia |]. cbn [digits_aux].
    change (10 ^ Z.of_nat 1) with 10 in Hn.
    by destruct (Z.ltb_spec n 10); [| lia].
  - destruct fuel as [| fuel]; [lia |]. cbn [digits_aux].
    rewrite !Nat2Z.inj_succ, !Z.pow_succ_r in Hn by lia.
    assert (1 ≤ 10 ^ Z.of_nat k) by (apply Z.pow_le_mono_r with (b := 0); lia).
    destruct (Z.ltb_spec n 10); [lia |].
    rewrite IH; [simpl; lia | | lia].
    rewrite Nat2Z.inj_succ, Z.pow_succ_r by lia. split.
    + apply Z.div_le_lower_bound; lia.
    + apply Z.div_lt_upper_bound; lia.
Qed.

Lemma str_Z_digits n : 0 ≤ n → Forall is_digit (chars (str_Z n)).
Proof.
  intros Hn. unfold str_Z. destruct (Z.ltb_spec n 0); [lia |].
  by apply digits_aux_digits; [| constructor].
Qed.

Lemma str_Z_length (k : nat) n :
  10 ^ Z.of_nat k ≤ n < 10 ^ Z.of_nat (S k) →
  String.length (str_Z n) = S k.
Proof.
  intros Hn.
  assert (1 ≤ 10 ^ Z.of_nat k) by (apply Z.pow_le_mono_r with (b := 0); lia).
  unfold str_Z. destruct (Z.ltb_spec n 0); [lia |].
  rewrite (digits_aux_length k); [simpl; lia | done |].
  unfold digits_fuel.
  assert (Z.of_nat k ≤ Z.log2 n); [| lia].
  apply Z.log2_le_pow2; [lia |].
  etrans; [| apply Hn]. apply Z.pow_le_mono_l. lia.
Qed.

Lemma int_of_string_digits s :
  s ≠ EmptyString → Forall is_digit (chars s) →
  int_of_string s = from_option Ok (Raise ValueError) (parse_digits s 0).
Proof.
  intros Hne Hs. destruct s as [| c t]; [done |].
  apply Forall_cons in Hs as [[d Hc] _].
  unfold int_of_string.
  destruct (Ascii.eqb_spec c "-") as [-> | _]; [done |].
  destruct (Ascii.eqb_spec c "+") as [-> | _]; [done |].
  by destruct (parse_digits _ _).
Qed.

Lemma digits_aux_nonempty fuel : ∀ n acc,
  acc ≠ EmptyString ∨ fuel ≠ O → digits_aux fuel n acc ≠ EmptyString.
Proof.
  induction fuel as [| fuel IH]; intros n acc Hne; [by destruct Hne |].
  cbn [digits_aux]. destruct (n <? 10); [done |].
  apply IH. by left.
Qed.

Lemma str_Z_nonempty n : str_Z n ≠ EmptyString.
Proof.
  unfold str_Z, digits_fuel. destruct (n <? 0); [done |].
  apply digits_aux_nonempty. by right.
Qed.

Lemma int_of_str_Z n : 0 ≤ n → int_of_string (str_Z n) = Ok n.
Proof.
  intros Hn.
  rewrite int_of_string_digits by auto using str_Z_nonempty, str_Z_digits.
  unfold str_Z. destruct (Z.ltb_spec n 0); [lia |].
  by rewrite digits_aux_parse by auto using digits_fuel_enough.
Qed.

Lemma split_blank_digits z c :
  Forall is_digit (chars z) → split_blank (z +:+ " " +:+ c) = Some (z, c).
Proof.
  induction z as [| a z IH]; intros Hz; [done |].
  cbn [chars] in Hz. apply Forall_cons in Hz as [[d Ha] Hz].
  change (String a z +:+ " " +:+ c) with (String a (z +:+ " " +:+ c)).
  cbn [split_blank].
  destruct (Ascii.eqb_spec a " ") as [-> | _]; [done |].
  by rewrite IH.
Qed.

(** ** The reference tables *)

(** No key occurs twice in the two dictionary literals, so reading them
    as finite maps loses nothing. *)
Lemma zip_code_ranges_keys_NoDup : NoDup zip_code_ranges_items.*1.
Proof. apply (bool_decide_unpack _). by vm_compute. Qed.

Lemma city_coords_keys_NoDup : NoDup city_coords_items.*1.
Proof. apply (bool_decide_unpack _). by vm_compute. Qed.

Lemma zip_code_ranges_Sachsen :
  zip_code_ranges !! "Sachsen"
  = Some (VList [ str_range "01000" "01999"; str_range "04000" "04999" ]).
Proof. vm_compute. reflexivity. Qed.

Lemma zip_code_ranges_single st v :
  zip_code_ranges !! st = Some v → st ≠ "Sachsen" →
  ∃ lo hi, v = int_range lo hi ∧ 10000 ≤ lo ∧ lo ≤ hi ∧ hi ≤ 99999.
Proof.
  intros Hv Hst. apply elem_of_list_to_map_2 in Hv.
  unfold zip_code_ranges_items in Hv.
  repeat (apply elem_of_cons in Hv as [Hv | Hv];
          [injection Hv as -> ->; first [done | eexists _, _; split; [done | lia]] |]).
  by apply elem_of_nil in Hv.
Qed.


(** ** The state-and-exception monad and the draws *)

Section Properties.
Context {RS : RandomSource} {FK : Faker}.

Lemma frame_refl w : frame w w.
Proof. done. Qed.

Lemma frame_trans w1 w2 w3 : frame w1 w2 → frame w2 w3 → frame w1 w3.
Proof. intros [? ?] [? ?]. split; congruence. Qed.


Lemma bind_run {A B} (m : M A) (f : A → M B) w a w1 :
  m w = Ok (a, w1) → (m ≫= f) w = f a w1.
Proof. unfold mbind, M_bind. by intros ->. Qed.

Lemma randbelow_total n w :
  ∃ r w', randbelow n w = Ok (r, w') ∧ (0 < n → 0 ≤ r < n) ∧ frame w w'.
Proof.
  unfold randbelow. pose proof (rng_randbelow_range n (w_random w)) as Hr.
  destruct (rng_randbelow n (w_random w)) as [r g]. eexists _, _.
  split; [done |]. split; [exact Hr | done].
Qed.


Lemma choice_total {A} (seq : list A) w :
  seq ≠ [] → ∃ x w', choice seq w = Ok (x, w') ∧ x ∈ seq ∧ frame w w'.
Proof.
  intros Hne.
  destruct (randbelow_total (Z.of_nat (length seq)) w) as (i & w' & Hi & Hr & Hf).
  assert (0 < Z.of_nat (length seq)) as Hlen by (destruct seq; [done | simpl; lia]).
  specialize (Hr Hlen).
  destruct (lookup_lt_is_Some_2 seq (Z.to_nat i)) as [x Hx]; [lia |].
  exists x, w'. split; [| split; [by eapply list_elem_of_lookup_2 | done]].
  unfold choice. destruct seq; [done |].
  rewrite (bind_run _ _ _ _ _ Hi). by rewrite Hx.
Qed.


Lemma randint_total a b w :
  a ≤ b → ∃ n w', randint a b w = Ok (n, w') ∧ a ≤ n ≤ b ∧ frame w w'.
Proof.
  intros Hab. unfold randint. destruct (Z.ltb_spec 0 (b + 1 - a)); [| lia].
  destruct (randbelow_total (b + 1 - a) w) as (r & w' & Hr & Hrange & Hf).
  exists (a + r), w'. rewrite (bind_run _ _ _ _ _ Hr).
  split; [done |]. split; [lia | done].
Qed.


(** ** [generate_zip_code] *)

Lemma generate_zip_code_range lo hi w :
  lo ≤ hi →
  ∃ n w', (lo0 ← index [VInt lo; VInt hi] 0; lo0 ← lift (py_int lo0);
           hi0 ← index [VInt lo; VInt hi] 1; hi0 ← lift (py_int hi0);
           n ← randint lo0 hi0; mret (VStr (str_Z n))) w
          = Ok (VStr (str_Z n), w')
          ∧ lo ≤ n ≤ hi ∧ frame w w'.
Proof.
  intros Hle. destruct (randint_total lo hi w Hle) as (n & w' & Hn & ? & ?).
  exists n, w'. split; [| done].
  cbn. unfold mbind, M_bind. cbn. by rewrite Hn.
Qed.

Lemma generate_zip_code_Sachsen w :
  ∃ n w', generate_zip_code "Sachsen" w = Ok (VStr (str_Z n), w')
          ∧ (1000 ≤ n ≤ 1999 ∨ 4000 ≤ n ≤ 4999) ∧ frame w w'.
Proof.
  unfold generate_zip_code. rewrite zip_code_ranges_Sachsen.
  cbn [default bool_decide decide_rel choice_val].
  set (l := [str_range "01000" "01999"; str_range "04000" "04999"]).
  destruct (choice_total l w) as (v & w1 & Hv & Hin & Hf1); [done |].
  rewrite bool_decide_eq_true_2 by done.
  rewrite (bind_run _ _ _ _ _ Hv).
  apply elem_of_cons in Hin as [-> | Hin];
    [| apply elem_of_cons in Hin as [-> | Hin]; [| by apply elem_of_nil in Hin]].
  - destruct (randint_total 1000 1999 w1) as (n & w' & Hn & ? & Hf2); [lia |].
    exists n, w'. split; [| split; [lia | by eapply frame_trans]].
    cbn. unfold mbind, M_bind. cbn.
    assert (int_of_string "01000" = Ok 1000) as -> by reflexivity.
    assert (int_of_string "01999" = Ok 1999) as -> by reflexivity.
    cbn. by rewrite Hn.
  - destruct (randint_total 4000 4999 w1) as (n & w' & Hn & ? & Hf2); [lia |].
    exists n, w'. split; [| split; [lia | by eapply frame_trans]].
    cbn. unfold mbind, M_bind. cbn.
    assert (int_of_string "04000" = Ok 4000) as -> by reflexivity.
    assert (int_of_string "04999" = Ok 4999) as -> by reflexivity.
    cbn. by rewrite Hn.
Qed.

Lemma generate_zip_code_other st w :
  st ≠ "Sachsen" →
  ∃ lo hi n w',
    effective_entry st = int_range lo hi
    ∧ 10000 ≤ lo ∧ hi ≤ 99999
    ∧ generate_zip_code st w = Ok (VStr (str_Z n), w')
    ∧ lo ≤ n ≤ hi ∧ frame w w'.
Proof.
  intros Hst.
  assert (∃ lo hi, effective_entry st = int_range lo hi
                   ∧ 10000 ≤ lo ∧ lo ≤ hi ∧ hi ≤ 99999) as (lo & hi & He & ? & ? & ?).
  { unfold effective_entry. destruct (zip_code_ranges !! st) as [v |] eqn:Hv.
    - by apply zip_code_ranges_single in Hv.
    - exists 10000, 19999. split; [done | lia]. }
  destruct (generate_zip_code_range lo hi w) as (n & w' & Hn & ? & ?); [done |].
  exists lo, hi, n, w'.
  split; [done |]. split; [lia |]. split; [lia |]. split; [| done].
  unfold generate_zip_code. fold (effective_entry st). rewrite He.
  rewrite bool_decide_eq_false_2 by done. exact Hn.
Qed.

(** Whatever the state and the draws, the generator returns the decimal
    rendering of a number of one of the ranges of the entry it used. *)
Lemma generate_zip_code_total st w :
  ∃ n w', generate_zip_code st w = Ok (VStr (str_Z n), w')
          ∧ 0 ≤ n ∧ in_ranges n (ranges_of (effective_entry st)) ∧ frame w w'.
Proof.
  destruct (decide (st = "Sachsen")) as [-> | Hst].
  - destruct (generate_zip_code_Sachsen w) as (n & w' & Hn & Hr & ?).
    exists n, w'. split; [done |]. split; [lia |]. split; [| done].
    unfold effective_entry. rewrite zip_code_ranges_Sachsen.
    change (ranges_of _) with [(1000, 1999); (4000, 4999)].
    destruct Hr; [exists 1000, 1999 | exists 4000, 4999];
      (split; [rewrite !elem_of_cons; by auto | lia]).
  - destruct (generate_zip_code_other st w Hst)
      as (lo & hi & n & w' & He & ? & ? & Hn & ? & ?).
    exists n, w'. split; [done |]. split; [lia |]. split; [| done].
    rewrite He. exists lo, hi. split; [apply elem_of_cons; by left | lia].
Qed.

(** ** [generate_address] *)

Lemma with_faker_run {A} (f : fstate → A * fstate) w :
  with_faker f w
  = Ok ((f (w_faker w)).1,
        {| w_random := w_random w; w_faker := (f (w_faker w)).2;
           w_clock := w_clock w |}).
Proof. unfold with_faker. by destruct (f (w_faker w)). Qed.

(** The address generator never raises; its ZIP part is the rendering of a
    number of the entry's ranges, and its city and street are what Faker
    yields from the state it had on entry. *)
Lemma generate_address_total st w :
  ∃ n w', generate_address st w
          = Ok ((str_Z n +:+ " " +:+ (faker_address (w_faker w)).1,
                 (faker_address (w_faker w)).2), w')
          ∧ 0 ≤ n ∧ in_ranges n (ranges_of (effective_entry st))
          ∧ w_clock w' = w_clock w.
Proof.
  destruct (generate_zip_code_total st w) as (n & w1 & Hz & Hn & Hr & Hf & Hc).
  exists n.
  unfold generate_address. rewrite (bind_run _ _ _ _ _ Hz).
  unfold faker_city, faker_street_name, faker_building_number, faker_address.
  unfold mbind, M_bind. rewrite with_faker_run, Hf.
  destruct (fk_city (w_faker w)) as [c s1].
  rewrite with_faker_run. cbn [fst snd w_faker].
  destruct (fk_street_name s1) as [sn s2].
  rewrite with_faker_run. cbn [fst snd w_faker].
  destruct (fk_building_number s2) as [bn s3].
  eexists. by split.
Qed.

(** ** The anatomy of a generated profile *)






(** ** ZIP codes *)



(** C5 (what the code does).  For "Sachsen" every draw returns a string of
    four digits, the rendering of a number of 1000-1999 or 4000-4999: the
    leading zero of the registered bounds is lost. *)
Theorem generate_zip_code_Sachsen_four_digits w :
  ∃ n w', generate_zip_code "Sachsen" w = Ok (VStr (str_Z n), w')
          ∧ (1000 ≤ n ≤ 1999 ∨ 4000 ≤ n ≤ 4999)
          ∧ String.length (str_Z n) = 4%nat
          ∧ Forall is_digit (chars (str_Z n)).
Proof.
  destruct (generate_zip_code_Sachsen w) as (n & w' & Hz & Hn & _).
  exists n, w'. split; [done |]. split; [done |].
  split; [| apply str_Z_digits; lia].
  apply (str_Z_length 3). change (10 ^ Z.of_nat 3) with 1000.
  change (10 ^ Z.of_nat 4) with 10000. lia.
Qed.

(** C7.  For a state that is not a key of the ZIP-range table the generator
    does not raise: it draws from Berlin's range 10000-19999. *)
Theorem generate_zip_code_unknown_state st w :
  zip_code_ranges !! st = None →
  ∃ n w', generate_zip_code st w = Ok (VStr (str_Z n), w')
          ∧ int_of_string (str_Z n) = Ok n
          ∧ 10000 ≤ n ≤ 19999.
Proof.
  intros Hnone.
  assert (st ≠ "Sachsen") as Hst.
  { intros ->. by rewrite zip_code_ranges_Sachsen in Hnone. }
  destruct (generate_zip_code_other st w Hst)
    as (lo & hi & n & w' & He & _ & _ & Hz & Hn & _).
  unfold effective_entry in He. rewrite Hnone in He.
  injection He as <- <-.
  exists n, w'. split; [done |]. split; [apply int_of_str_Z; lia | done].
Qed.

(** C10.  For every state other than "Sachsen", registered or not, the
    generator returns a string of exactly five decimal digits. *)
Theorem generate_zip_code_five_digits st w :
  st ≠ "Sachsen" →
  ∃ s w', generate_zip_code st w = Ok (VStr s, w')
          ∧ String.length s = 5%nat
          ∧ Forall is_digit (chars s).
Proof.
  intros Hst.
  destruct (generate_zip_code_other st w Hst)
    as (lo & hi & n & w' & _ & Hlo & Hhi & Hz & Hn & _).
  exists (str_Z n), w'. split; [done |].
  split; [| apply str_Z_digits; lia].
  apply (str_Z_length 4). change (10 ^ Z.of_nat 4) with 10000.
  change (10 ^ Z.of_nat 5) with 100000. lia.
Qed.

(** ** Coordinates *)

(** C6.  The coordinate generator never raises: it returns the registered
    pair for a city of the table and the centroid (51.1657, 10.4515) for any
    other name. *)
Theorem generate_geo_coordinates_total c :
  generate_geo_coordinates c
  = Ok (match city_coords !! c with
        | Some coords => coords
        | None => (51.1657, 10.4515)%float
        end).
Proof.
  unfold generate_geo_coordinates.
  destruct (city_coords !! c) as [coords |] eqn:Hc.
  - rewrite bool_decide_eq_true_2; [done |]. apply elem_of_dom. by eexists.
  - rewrite bool_decide_eq_false_2; [done |]. by apply not_elem_of_dom.
Qed.

(** ** Names, quantity and tax *)




(** ** Monetary fields *)


(** ** The address *)

(** C9.  The city and the street line of the address do not depend on the
    state: from one world, any two states give the same city and the same
    street, and only the ZIP part in front of the first blank may differ. *)
Theorem generate_address_state_independent st1 st2 w :
  ∃ z1 z2 c str w1 w2,
    generate_address st1 w = Ok ((z1 +:+ " " +:+ c, str), w1)
    ∧ generate_address st2 w = Ok ((z2 +:+ " " +:+ c, str), w2)
    ∧ split_blank (z1 +:+ " " +:+ c) = Some (z1, c)
    ∧ split_blank (z2 +:+ " " +:+ c) = Some (z2, c)
    ∧ (c, str) = faker_address (w_faker w).
Proof.
  destruct (generate_address_total st1 w) as (n1 & w1 & H1 & Hn1 & _).
  destruct (generate_address_total st2 w) as (n2 & w2 & H2 & Hn2 & _).
  exists (str_Z n1), (str_Z n2), (faker_address (w_faker w)).1,
    (faker_address (w_faker w)).2, w1, w2.
  split; [done |]. split; [done |].
  rewrite !split_blank_digits by auto using str_Z_digits.
  split; [done |]. split; [done |]. by destruct (faker_address _).
Qed.

(** ** Reproducibility *)


End Properties.

(** * Further properties of the generators *)


Ltac bind_step H :=
  rewrite (bind_run _ _ _ _ _ H); cbv beta zeta.

(** ** Lower case *)









Section MoreProperties.
Context {RS : RandomSource} {FK : Faker}.

(** ** [generate_zip_code], for any state *)

(** X16.  For every state name, registered or not, [generate_zip_code]
    returns a string, never the raw range entry: the decimal rendering of
    a number between 1000 and 99999.  It does not raise, and it leaves
    Faker and the clock untouched. *)
Theorem generate_zip_code_never_raises st w :
  ∃ n w', generate_zip_code st w = Ok (VStr (str_Z n), w')
          ∧ 1000 ≤ n ≤ 99999
          ∧ int_of_string (str_Z n) = Ok n
          ∧ w_faker w' = w_faker w ∧ w_clock w' = w_clock w.
Proof.
  destruct (decide (st = "Sachsen")) as [-> | Hst].
  - destruct (generate_zip_code_Sachsen w) as (n & w' & Hz & Hn & Hf & Hc).
    exists n, w'. split; [done |]. split; [lia |].
    split; [apply int_of_str_Z; lia | done].
  - destruct (generate_zip_code_other st w Hst)
      as (lo & hi & n & w' & _ & ? & ? & Hz & ? & Hf & Hc).
    exists n, w'. split; [done |]. split; [lia |].
    split; [apply int_of_str_Z; lia | done].
Qed.


(** ** [generate_email] *)








(** X3.  An empty name makes the user-name shape that takes its initial
    raise [IndexError]: format 2 with an empty first name, format 3 with an
    empty last name. *)
Theorem generate_email_empty_name first last w provider ft w1 w2 :
  choice email_providers w = Ok (provider, w1) →
  randint 1 4 w1 = Ok (ft, w2) →
  ft = 2 ∧ first = EmptyString ∨ ft = 3 ∧ last = EmptyString →
  generate_email first last w = Raise IndexError.
Proof.
  intros Hp Hft Hcase. unfold generate_email. bind_step Hp. bind_step Hft.
  by destruct Hcase as [[-> ->] | [-> ->]].
Qed.

(** ** [generate_birthday] *)


Lemma replace_year_Raise t y :
  ¬ (1 ≤ y ≤ 9999 ∧ dt_day t ≤ days_in_month y (dt_month t)) →
  replace_year t y = Raise ValueError.
Proof.
  intros Hn. unfold replace_year.
  destruct (Z.leb_spec 1 y); [| done]. destruct (Z.leb_spec y 9999); [| done].
  destruct (Z.leb_spec (dt_day t) (days_in_month y (dt_month t))); [| done].
  destruct Hn. lia.
Qed.


Lemma generate_birthday_run min_age max_age w :
  generate_birthday min_age max_age w
  = match replace_year (w_clock w O) (dt_year (w_clock w O) - max_age) with
    | Ok _ =>
        let r := fk_date_of_birth (w_clock w 1%nat) min_age max_age (w_faker w) in
        Ok (strftime_date r.1,
            {| w_random := w_random w; w_faker := r.2;
               w_clock := λ i, w_clock w (S (S i)) |})
    | Raise e => Raise e
    end.
Proof.
  unfold generate_birthday, faker_date_of_birth, now, lift, with_faker.
  unfold mbind, M_bind, mret, M_ret. cbn.
  destruct (replace_year _ _); [| done]. cbn.
  by destruct (fk_date_of_birth _ _ _ _).
Qed.


(** X5.  On a 29 February whose year minus [max_age] is not a leap year
    the birthday generator raises [ValueError]. *)
Theorem generate_birthday_raises_on_leap_day min_age max_age w :
  dt_month (w_clock w O) = 2 → dt_day (w_clock w O) = 29 →
  is_leap (dt_year (w_clock w O) - max_age) = false →
  generate_birthday min_age max_age w = Raise ValueError.
Proof.
  intros Hm Hd Hleap. rewrite generate_birthday_run, replace_year_Raise; [done |].
  unfold days_in_month. rewrite Hm, Hd, Hleap. cbn. lia.
Qed.

(** ** The steps of [generate_profile] never fail, the birthday apart *)












(** ** More of the anatomy of a generated profile *)






(** ** The batch generator *)






(** X12.  A [count] of zero or less yields the empty list without drawing
    anything: the world is left as it was. *)
Theorem generate_profiles_nonpositive count w :
  count ≤ 0 → generate_profiles count w = Ok ([], w).
Proof.
  intros Hc. unfold generate_profiles.
  by replace (Z.to_nat count) with O by lia.
Qed.



End MoreProperties.

(** * Properties of the script *)

Section ScriptProperties.
Context {RS : RandomSource} {FK : Faker} {EX : Exporters}.

Lemma load_module_flags env fl :
  load_module env = inr fl →
  EXCEL_AVAILABLE fl = true ∧ FOLIUM_AVAILABLE fl = has_folium env.
Proof.
  unfold load_module.
  destruct (has_pandas env), (has_faker env), (has_openpyxl env); try done.
  by intros [= <-].
Qed.

(** X15.  Whenever the module has been loaded, [save_to_excel] calls the
    writer: the plain [import openpyxl] at the top already raised if the
    package is missing, so the branch that reports it is never taken. *)
Theorem save_to_excel_guard_dead env fl df file_path s :
  load_module env = inr fl →
  save_to_excel fl df file_path s
  = match df_to_excel df file_path (sys_files s) with
    | Some fs =>
        (Done tt,
         {| sys_world := sys_world s; sys_files := fs;
            sys_stdout := sys_stdout s ++ ["Data saved to Excel: " +:+ file_path] |})
    | None => (Failed WriterError, s)
    end.
Proof.
  intros Hl. apply load_module_flags in Hl as [Hx _].
  unfold save_to_excel, write, print, mbind, IO_bind. rewrite Hx. cbn.
  by destruct (df_to_excel df file_path (sys_files s)).
Qed.







End ScriptProperties.

(** * The properties on concrete runs *)




Lemma generate_zip_code_unknown_state_witness :
  zip_code_ranges !! "Atlantis" = None
  ∧ ∃ n w', generate_zip_code "Atlantis" sample_world = Ok (VStr (str_Z n), w')
            ∧ int_of_string (str_Z n) = Ok n
            ∧ 10000 ≤ n ≤ 19999.
Proof.
  split; [vm_compute; reflexivity |].
  apply (generate_zip_code_unknown_state "Atlantis" sample_world).
  vm_compute. reflexivity.
Defined.

Lemma generate_zip_code_five_digits_witness :
  "Bayern" ≠ "Sachsen"
  ∧ ∃ s w', generate_zip_code "Bayern" sample_world = Ok (VStr s, w')
            ∧ String.length s = 5%nat
            ∧ Forall is_digit (chars s).
Proof.
  split; [discriminate |].
  apply (generate_zip_code_five_digits "Bayern" sample_world). discriminate.
Defined.







(** On a 29 February whose year minus 80 is not a leap year,
    [generate_birthday] raises at [end_date.replace(...)]. *)
Lemma generate_birthday_leap_day :
  generate_birthday 18 80 (tape_world [] [] (DateTime 2180 2 29 12 0 0))
  = Raise ValueError.
Proof. reflexivity. Qed.

(** * The further properties on concrete runs *)

Ltac with_result t k :=
  let r := eval vm_compute in t in
  lazymatch r with
  | Ok (?a, ?w') => k a w'
  end.



Lemma generate_email_empty_name_witness :
  ∃ provider w1 w2,
    choice email_providers (tape_world [0; 1] [] summer_day) = Ok (provider, w1)
    ∧ randint 1 4 w1 = Ok (2, w2)
    ∧ (2 = 2 ∧ EmptyString = EmptyString ∨ 2 = 3 ∧ "Meyer" = EmptyString)
    ∧ generate_email EmptyString "Meyer" (tape_world [0; 1] [] summer_day)
      = Raise IndexError.
Proof.
  with_result (choice email_providers (tape_world [0; 1] [] summer_day))
    ltac:(fun prov w1 =>
      with_result (randint 1 4 w1) ltac:(fun ft w2 =>
        exists prov, w1, w2;
        split; [reflexivity |]; split; [reflexivity |];
        split; [by left |];
        apply (generate_email_empty_name EmptyString "Meyer"
                 (tape_world [0; 1] [] summer_day) prov 2 w1 w2);
        [reflexivity | reflexivity | by left])).
Defined.

Lemma generate_birthday_raises_on_leap_day_witness :
  dt_month (w_clock leap_day_world O) = 2
  ∧ dt_day (w_clock leap_day_world O) = 29
  ∧ is_leap (dt_year (w_clock leap_day_world O) - 80) = false
  ∧ generate_birthday 18 80 leap_day_world = Raise ValueError.
Proof.
  split; [reflexivity |]. split; [reflexivity |]. split; [reflexivity |].
  apply (generate_birthday_raises_on_leap_day 18 80 leap_day_world);
    reflexivity.
Defined.







Lemma generate_profiles_nonpositive_witness :
  -3 ≤ 0 ∧ generate_profiles (-3) sample_world = Ok ([], sample_world).
Proof.
  split; [lia |]. apply (generate_profiles_nonpositive (-3) sample_world). lia.
Defined.



Lemma save_to_excel_guard_dead_witness :
  load_module full_env = inr all_flags
  ∧ save_to_excel all_flags [] "out.xlsx" (sample_sys 3 summer_day)
    = match df_to_excel [] "out.xlsx" (sys_files (sample_sys 3 summer_day)) with
      | Some fs =>
          (Done tt,
           {| sys_world := sys_world (sample_sys 3 summer_day); sys_files := fs;
              sys_stdout := sys_stdout (sample_sys 3 summer_day)
                            ++ ["Data saved to Excel: " +:+ "out.xlsx"] |})
      | None => (Failed WriterError, sample_sys 3 summer_day)
      end.
Proof.
  split; [reflexivity |].
  apply (save_to_excel_guard_dead full_env all_flags [] "out.xlsx"
           (sample_sys 3 summer_day)).
  reflexivity.
Defined.





